(** * Model Armor callout example: the screening-and-mutation decision logic

    Shallow embedding of
    [callouts/python/extproc/example/model_armor/service_callout_example.py]:
    the two screening functions [screen_prompt] and [screen_model_response]
    and the two body handlers [on_request_body] and [on_response_body] of
    [CalloutServerExample].

    Python values are modelled as the code sees them: [str] as a list of
    Unicode code points, [bytes] as a list of bytes, the result of
    [json.loads] as a tree of JSON values, exceptions as an error result.
    The Model Armor backend, the process environment and the JSON codec are
    external to the file; they are variables of the section that holds the
    handlers. *)

From Stdlib Require Import ZArith NArith Lia String Ascii List.
From Stdlib.Strings Require Import Byte.
From Stdlib Require Import SpecFloat DecimalString.
From stdpp Require Import base option list gmap.

Set Warnings "-register-all".
Local Open Scope N_scope.

(** ** Python strings and bytes *)

(** A Python [str]: a sequence of code points. *)
Abbreviation pystr := (list N).

(** A Python [bytes] object. *)
Abbreviation pybytes := (list Byte.byte).

(** ASCII string literal of the source, as a [str]. *)
Definition py (s : string) : pystr :=
  List.map N_of_ascii (list_ascii_of_string s).
Arguments py s%_string.

(** Bytes of a body, for the examples. The literal is written with an
    apostrophe wherever the body has a double quote. *)
Definition body_of (s : string) : pybytes :=
  List.map (fun b => match b with Byte.x27 => Byte.x22 | _ => b end)
    (list_byte_of_string s).
Arguments body_of s%_string.

(** Python exceptions that the modelled code can raise. [ClientError]
    stands for any failure of the backend call. *)
Inductive exn : Type :=
| UnicodeDecodeError
| JSONDecodeError
| AttributeError
| KeyError
| IndexError
| TypeError
| ClientError.

Inductive Result (A : Type) : Type :=
| Ok (a : A)
| Raise (e : exn).
Arguments Ok {A} a.
Arguments Raise {A} e.

Module Utf8.

(** Continuation byte [10xxxxxx], restricted to [lo..hi]. *)
Definition in_range (lo hi : N) (b : Byte.byte) : bool :=
  (lo <=? Byte.to_N b) && (Byte.to_N b <=? hi).

Definition low6 (b : Byte.byte) : N := N.land (Byte.to_N b) 0x3F.

(** [bytes.decode('utf-8')] with the default [errors='strict']: the
    well-formed byte sequences of the Unicode standard (no overlong
    forms, no surrogates, nothing above U+10FFFF); anything else raises
    [UnicodeDecodeError], here [None]. *)
Fixpoint decode (bs : pybytes) : option pystr :=
  match bs with
  | [] => Some []
  | b0 :: r0 =>
    let n0 := Byte.to_N b0 in
    if n0 <? 0x80 then cons n0 <$> decode r0
    else if n0 <? 0xC2 then None
    else if n0 <? 0xE0 then
      match r0 with
      | b1 :: r1 =>
        if in_range 0x80 0xBF b1
        then cons (N.shiftl (N.land n0 0x1F) 6 + low6 b1) <$> decode r1
        else None
      | _ => None
      end
    else if n0 <? 0xF0 then
      match r0 with
      | b1 :: b2 :: r2 =>
        let lo := if n0 =? 0xE0 then 0xA0 else 0x80 in
        let hi := if n0 =? 0xED then 0x9F else 0xBF in
        if in_range lo hi b1 && in_range 0x80 0xBF b2
        then cons (N.shiftl (N.land n0 0x0F) 12
                   + N.shiftl (low6 b1) 6 + low6 b2) <$> decode r2
        else None
      | _ => None
      end
    else if n0 <? 0xF5 then
      match r0 with
      | b1 :: b2 :: b3 :: r3 =>
        let lo := if n0 =? 0xF0 then 0x90 else 0x80 in
        let hi := if n0 =? 0xF4 then 0x8F else 0xBF in
        if in_range lo hi b1 && in_range 0x80 0xBF b2
           && in_range 0x80 0xBF b3
        then cons (N.shiftl (N.land n0 0x07) 18
                   + N.shiftl (low6 b1) 12
                   + N.shiftl (low6 b2) 6 + low6 b3) <$> decode r3
        else None
      | _ => None
      end
    else None
  end.

End Utf8.

(** [body.decode('utf-8')]. *)
Definition decode_utf8 (body : pybytes) : Result pystr :=
  match Utf8.decode body with
  | Some s => Ok s
  | None => Raise UnicodeDecodeError
  end.

(** [str.isspace] on one code point: the characters [str.strip()] removes
    when called without argument. *)
Definition is_space (c : N) : bool :=
  ((0x09 <=? c) && (c <=? 0x0D)) || ((0x1C <=? c) && (c <=? 0x20))
  || (c =? 0x85) || (c =? 0xA0) || (c =? 0x1680)
  || ((0x2000 <=? c) && (c <=? 0x200A))
  || (c =? 0x2028) || (c =? 0x2029) || (c =? 0x202F)
  || (c =? 0x205F) || (c =? 0x3000).

Fixpoint lstrip (s : pystr) : pystr :=
  match s with
  | c :: s' => if is_space c then lstrip s' else s
  | [] => []
  end.

Definition rstrip (s : pystr) : pystr := rev (lstrip (rev s)).

(** [str.strip()]. *)
Definition strip (s : pystr) : pystr := rstrip (lstrip s).

(** ** JSON documents as Python objects *)

(** What [json.loads] returns: [None], [bool], [int], [float], [str],
    [list], and [dict] with [str] keys. A [dict] keeps insertion order and
    has no duplicate key; it is an association list. *)
Inductive json : Type :=
| JNull
| JBool (b : bool)
| JInt (z : Z)
| JFloat (f : spec_float)
| JStr (s : pystr)
| JList (l : list json)
| JDict (d : list (pystr * json)).

(** Truth value of an object, as tested by [not x]. *)
Definition truthy (v : json) : bool :=
  match v with
  | JNull => false
  | JBool b => b
  | JInt z => negb (z =? 0)%Z
  | JFloat (S754_zero _) => false
  | JFloat _ => true
  | JStr s => match s with [] => false | _ => true end
  | JList l => match l with [] => false | _ => true end
  | JDict d => match d with [] => false | _ => true end
  end.

Fixpoint dict_lookup (d : list (pystr * json)) (k : pystr) : option json :=
  match d with
  | [] => None
  | (k', v) :: d' => if bool_decide (k' = k) then Some v else dict_lookup d' k
  end.

(** [d[k] = v] on a dict: replaces the value in place when the key exists,
    appends the item otherwise. *)
Fixpoint dict_store (d : list (pystr * json)) (k : pystr) (v : json)
  : list (pystr * json) :=
  match d with
  | [] => [(k, v)]
  | (k', v') :: d' =>
    if bool_decide (k' = k) then (k', v) :: d'
    else (k', v') :: dict_store d' k v
  end.

(** [o.get(k, default)]: only a dict has the method. *)
Definition py_get (o : json) (k : pystr) (dflt : json) : Result json :=
  match o with
  | JDict d => Ok (default dflt (dict_lookup d k))
  | _ => Raise AttributeError
  end.

(** [o[k]] with a [str] key. A missing key of a dict raises [KeyError];
    a list or a str takes integer indices only and any other object is not
    subscriptable, both [TypeError]. *)
Definition getitem_key (o : json) (k : pystr) : Result json :=
  match o with
  | JDict d =>
    match dict_lookup d k with
    | Some v => Ok v
    | None => Raise KeyError
    end
  | _ => Raise TypeError
  end.

(** [o[i]] with a non-negative [int] index. The keys of a dict that comes
    from [json.loads] are all [str], so an [int] is never among them. *)
Definition getitem_index (o : json) (i : nat) : Result json :=
  match o with
  | JList l =>
    match l !! i with
    | Some v => Ok v
    | None => Raise IndexError
    end
  | JStr s =>
    match s !! i with
    | Some c => Ok (JStr [c])
    | None => Raise IndexError
    end
  | JDict _ => Raise KeyError
  | _ => Raise TypeError
  end.

(** [o[k] = v] with a [str] key: only a dict accepts it. *)
Definition setitem_key (o : json) (k : pystr) (v : json) : Result json :=
  match o with
  | JDict d => Ok (JDict (dict_store d k v))
  | _ => Raise TypeError
  end.

(** [o[i] = v] with a non-negative [int] index. On a dict it would add an
    [int] key, which no document read by [json.loads] has; the code only
    reaches it on a list. *)
Definition setitem_index (o : json) (i : nat) (v : json) : Result json :=
  match o with
  | JList l =>
    if decide (i < length l)%nat then Ok (JList (<[i:=v]> l))
    else Raise IndexError
  | _ => Raise TypeError
  end.

(** ** The Model Armor client library ([google.cloud.modelarmor_v1]) *)

Inductive FilterMatchState : Type :=
| FILTER_MATCH_STATE_UNSPECIFIED
| NO_MATCH_FOUND
| MATCH_FOUND.

#[global] Instance FilterMatchState_eq_dec : EqDecision FilterMatchState.
Proof. solve_decision. Defined.

Record DataItem : Type := { text : pystr }.

Record SdpDeidentifyResult : Type :=
  { match_state : FilterMatchState; data : DataItem }.

(** The [oneof] of an SDP filter result. *)
Inductive SdpFilterResult : Type :=
| sdp_unset
| sdp_inspect_result (inspect_match_state : FilterMatchState)
| sdp_deidentify_result (r : SdpDeidentifyResult).

(** The [oneof] of a filter result; the filters other than SDP carry a
    match state and no text. *)
Inductive FilterResult : Type :=
| filter_unset
| rai_filter_result (m : FilterMatchState)
| sdp_filter_result_of (r : SdpFilterResult)
| pi_and_jailbreak_filter_result (m : FilterMatchState)
| malicious_uri_filter_result (m : FilterMatchState)
| csam_filter_filter_result (m : FilterMatchState)
| virus_scan_filter_result (m : FilterMatchState).

(** Reading a message field that is not the one set in its [oneof] gives
    the default message: match state unspecified, empty text. *)
Definition sdp_filter_result (r : FilterResult) : SdpFilterResult :=
  match r with
  | sdp_filter_result_of s => s
  | _ => sdp_unset
  end.

Definition deidentify_result (s : SdpFilterResult) : SdpDeidentifyResult :=
  match s with
  | sdp_deidentify_result r => r
  | _ => {| match_state := FILTER_MATCH_STATE_UNSPECIFIED;
            data := {| text := [] |} |}
  end.

Record SanitizationResult : Type :=
  { filter_match_state : FilterMatchState;
    filter_results : gmap pystr FilterResult }.

Record SanitizeResponse : Type :=
  { sanitization_result : SanitizationResult }.

(** The two entry points of [ModelArmorClient]. *)
Inductive Method : Type :=
| sanitize_user_prompt
| sanitize_model_response.

(** One backend call: the endpoint the client was built for, the entry
    point, and the request ([name] is the template, [user_prompt_data] the
    text to screen). *)
Record Call : Type :=
  { api_endpoint : pystr;
    method : Method;
    name : option pystr;
    user_prompt_data : DataItem }.

(** ** Effects: backend calls and exceptions *)

(** A computation records the backend calls it makes, in order, and
    returns a value or raises. *)
Definition Callout (A : Type) : Type := list Call -> list Call * Result A.

#[global] Instance Callout_ret : MRet Callout :=
  fun A a log => (log, Ok a).

#[global] Instance Callout_bind : MBind Callout :=
  fun A B k m log =>
    match m log with
    | (log', Ok a) => k a log'
    | (log', Raise e) => (log', Raise e)
    end.

Definition raise {A} (e : exn) : Callout A := fun log => (log, Raise e).

(** A pure step that may raise. *)
Definition lift {A} (r : Result A) : Callout A := fun log => (log, r).

(** Runs a computation from an empty log. *)
Definition run {A} (m : Callout A) : list Call * Result A := m [].

#[global] Instance Result_ret : MRet Result := fun A a => Ok a.

#[global] Instance Result_bind : MBind Result :=
  fun A B k r =>
    match r with
    | Ok a => k a
    | Raise e => Raise e
    end.

(** ** What a handler returns *)

(** Modelled from the spec: the helpers of [extproc.service.callout_tools]
    and the [StatusCode] enum are not among the sources. The three helpers
    the handlers call are kept as constructors with the arguments they are
    given: [add_body_mutation()] without a body leaves the message as it is
    (the spec's PassThrough), with a body it replaces the body (MutateBody);
    [header_immediate_response] is the spec's ImmediateResponse and
    [deny_callout] its Deny. *)
Inductive Reply : Type :=
| add_body_mutation (body : option pystr)
| header_immediate_response (code : Z) (headers : list (pystr * pystr))
| deny_callout (msg : pystr).

Abbreviation PassThrough := (add_body_mutation None).
Abbreviation MutateBody b := (add_body_mutation (Some b)).

Module StatusCode.
(** Modelled from the spec: [http_status_pb2.StatusCode.Forbidden], HTTP
    status 403. *)
Definition Forbidden : Z := 403.
End StatusCode.

(** [DataItem(text=x)]: the field takes a [str] and nothing else. *)
Definition as_text (x : json) : Result pystr :=
  match x with
  | JStr s => Ok s
  | _ => Raise TypeError
  end.

(** [x or y] on two [str]. *)
Definition py_or (x y : pystr) : pystr :=
  match x with
  | [] => y
  | _ => x
  end.

(** [f"{x}"] of the result of [os.environ.get]. *)
Definition format_env (x : option pystr) : pystr := default (py "None") x.

(** [r.sdp_filter_result] where [r] is the result of
    [filter_results.get("sdp")]: [None] has no such attribute. *)
Definition get_sdp_filter_result (r : option FilterResult)
  : Result SdpFilterResult :=
  match r with
  | Some fr => Ok (sdp_filter_result fr)
  | None => Raise AttributeError
  end.

(** Lines 61-84 of [screen_prompt]: the reading of the findings, the
    spec's [interpret]. The result is the pair [(is_invalid, final_prompt)]
    that the function returns: the flag set is the spec's Block, the flag
    clear with the given text its Allow, with another text its Rewrite. *)
Definition interpret_prompt (result : SanitizationResult) (prompt : pystr)
  : Result (bool * pystr) :=
  let is_invalid := false in
  let final_prompt := prompt in
  if decide (filter_match_state result = MATCH_FOUND) then
    sdp ← get_sdp_filter_result (filter_results result !! py "sdp");
    if decide (match_state (deidentify_result sdp) = MATCH_FOUND) then
      sdp' ← get_sdp_filter_result (filter_results result !! py "sdp");
      let final_prompt := py_or (text (data (deidentify_result sdp'))) prompt in
      mret (is_invalid, final_prompt)
    else
      let is_invalid := true in
      mret (is_invalid, final_prompt)
  else mret (is_invalid, final_prompt).

(** Lines 119-141 of [screen_model_response]: the same reading, without
    the [or] of line 77. *)
Definition interpret_model_response (result : SanitizationResult)
  (model_response : pystr) : Result (bool * pystr) :=
  let is_invalid := false in
  let final_model_response := model_response in
  if decide (filter_match_state result = MATCH_FOUND) then
    sdp ← get_sdp_filter_result (filter_results result !! py "sdp");
    if decide (match_state (deidentify_result sdp) = MATCH_FOUND) then
      sdp' ← get_sdp_filter_result (filter_results result !! py "sdp");
      let final_model_response := text (data (deidentify_result sdp')) in
      mret (is_invalid, final_model_response)
    else
      let is_invalid := true in
      mret (is_invalid, final_model_response)
  else mret (is_invalid, final_model_response).

(** The text a handler found in a body: none, or the parsed document with
    the value at the screened path. *)
Inductive Extracted : Type :=
| Absent
| Present (body_json : json) (content : json).

(** Line 180 of [on_request_body]: [body_json["prompt"] = valid_prompt]. *)
Definition store_prompt (body_json : json) (valid_prompt : pystr)
  : Result json :=
  setitem_key body_json (py "prompt") (JStr valid_prompt).

(** Line 213 of [on_response_body]: the assignment reads [choices], [[0]]
    and [message] again and stores in the innermost dict, which the
    document shares. *)
Definition store_model_response (response_body_json : json)
  (valid_model_response : pystr) : Result json :=
  choices ← getitem_key response_body_json (py "choices");
  choice ← getitem_index choices 0;
  message ← getitem_key choice (py "message");
  message' ← setitem_key message (py "content") (JStr valid_model_response);
  choice' ← setitem_key choice (py "message") message';
  choices' ← setitem_index choices 0 choice';
  setitem_key response_body_json (py "choices") choices'.

(** The two rejections, lines 170-178 and 208-211. *)
Definition prompt_rejection : Reply :=
  header_immediate_response StatusCode.Forbidden
    [(py "model-armour-message",
      py "Provided prompt does not comply with Responsible AI filter")].

Definition model_response_rejection : Reply :=
  deny_callout
    (py "Model response violates responsible AI filters. Update the prompt or contact application admin if issue persists.").

(** The direction of a body: a prompt goes through [on_request_body], a
    model response through [on_response_body]. *)
Inductive Direction : Type :=
| Prompt
| Response.

Section CalloutServerExample.

(** [os.environ]. *)
Variable environ : gmap pystr pystr.

(** The Model Armor service: the response, or the failure, for a call. *)
Variable backend : Call -> Result SanitizeResponse.

(** [json.loads] and [json.dumps]. *)
Variable json_loads : pystr -> Result json.
Variable json_dumps : json -> pystr.

(** The endpoint given to [ModelArmorClient], lines 40-48 and 98-106. *)
Definition endpoint : pystr :=
  py "modelarmor." ++ format_env (environ !! py "MA_LOCATION")
  ++ py ".rep.googleapis.com".

(** The call of lines 51-59. *)
Definition user_prompt_call (prompt : pystr) : Call :=
  {| api_endpoint := endpoint;
     method := sanitize_user_prompt;
     name := environ !! py "MA_PROMPT_TEMPLATE";
     user_prompt_data := {| text := prompt |} |}.

(** The call of lines 109-117; the request is built as a
    [SanitizeUserPromptRequest] there too. *)
Definition model_response_call (model_response : pystr) : Call :=
  {| api_endpoint := endpoint;
     method := sanitize_model_response;
     name := environ !! py "MA_RESPONSE_TEMPLATE";
     user_prompt_data := {| text := model_response |} |}.

(** A call of the client: logged, then answered by the backend. *)
Definition invoke (c : Call) : Callout SanitizeResponse :=
  fun log => (log ++ [c], backend c).

(** [screen_prompt(prompt)], lines 28-84. *)
Definition screen_prompt (prompt : pystr) : Callout (bool * pystr) :=
  sanitize_response ← invoke (user_prompt_call prompt);
  lift (interpret_prompt (sanitization_result sanitize_response) prompt).

(** [screen_model_response(model_response)], lines 87-141. *)
Definition screen_model_response (model_response : pystr)
  : Callout (bool * pystr) :=
  sanitize_model_response_ ← invoke (model_response_call model_response);
  lift (interpret_model_response
          (sanitization_result sanitize_model_response_) model_response).

(** Lines 158-166 of [on_request_body]: the text to screen, read from
    the top-level key [prompt] of the body. *)
Definition extract_prompt (body : pybytes) : Result Extracted :=
  decoded ← decode_utf8 body;
  let body_content := strip decoded in
  if bool_decide (body_content = []) then mret Absent else
  body_json ← json_loads body_content;
  prompt ← py_get body_json (py "prompt") (JStr []);
  if negb (truthy prompt) then mret Absent else
  mret (Present body_json prompt).

(** [on_request_body(body, context)], lines 147-181. The text given to
    [screen_prompt] goes into [DataItem(text=...)] before anything else
    is done with it. *)
Definition on_request_body (body : pybytes) : Callout Reply :=
  e ← lift (extract_prompt body);
  match e with
  | Absent => mret (add_body_mutation None)
  | Present body_json prompt =>
    prompt ← lift (as_text prompt);
    r ← screen_prompt prompt;
    let '(is_invalid_prompt, valid_prompt) := r in
    if (is_invalid_prompt : bool) then mret prompt_rejection
    else
      body_json' ← lift (store_prompt body_json valid_prompt);
      mret (add_body_mutation (Some (json_dumps body_json')))
  end.

(** Lines 194-203 of [on_response_body]: the text to screen, read at
    [choices[0].message.content]. The [print] of line 197 writes to the
    standard output and is left out. *)
Definition extract_model_response (body : pybytes) : Result Extracted :=
  decoded ← decode_utf8 body;
  let body_content := strip decoded in
  if bool_decide (body_content = []) then mret Absent else
  response_body_json ← json_loads body_content;
  choices ← getitem_key response_body_json (py "choices");
  choice ← getitem_index choices 0;
  message ← getitem_key choice (py "message");
  model_response ← getitem_key message (py "content");
  if negb (truthy model_response) then mret Absent else
  mret (Present response_body_json model_response).

(** [on_response_body(body, context)], lines 183-214. Line 205 calls
    [screen_prompt]. *)
Definition on_response_body (body : pybytes) : Callout Reply :=
  e ← lift (extract_model_response body);
  match e with
  | Absent => mret (add_body_mutation None)
  | Present response_body_json model_response =>
    model_response ← lift (as_text model_response);
    r ← screen_prompt model_response;
    let '(is_invalid_model_response, valid_model_response) := r in
    if (is_invalid_model_response : bool) then mret model_response_rejection
    else
      response_body_json' ←
        lift (store_model_response response_body_json valid_model_response);
      mret (add_body_mutation (Some (json_dumps response_body_json')))
  end.

(** The handler, and its parts, by direction. *)
Definition extract (d : Direction) : pybytes -> Result Extracted :=
  match d with
  | Prompt => extract_prompt
  | Response => extract_model_response
  end.

Definition handler (d : Direction) : pybytes -> Callout Reply :=
  match d with
  | Prompt => on_request_body
  | Response => on_response_body
  end.

End CalloutServerExample.

Definition store (d : Direction) : json -> pystr -> Result json :=
  match d with
  | Prompt => store_prompt
  | Response => store_model_response
  end.

Definition rejection (d : Direction) : Reply :=
  match d with
  | Prompt => prompt_rejection
  | Response => model_response_rejection
  end.

(** ** A reference JSON codec

    The handlers take [json.loads] and [json.dumps] as given. The examples
    below run them with this codec, which follows the Python module on
    documents without fractional numbers: [loads] rejects a number with a
    fraction or an exponent, and [dumps] writes a finite float with its
    exact decimal expansion where Python writes the shortest one that reads
    back as the same float. *)
Module RefJson.

Definition is_ws (c : N) : bool :=
  (c =? 0x20) || (c =? 0x09) || (c =? 0x0A) || (c =? 0x0D).

Fixpoint skip_ws (s : pystr) : pystr :=
  match s with
  | c :: s' => if is_ws c then skip_ws s' else s
  | [] => []
  end.

Definition hex_value (c : N) : option N :=
  if (0x30 <=? c) && (c <=? 0x39) then Some (c - 0x30)
  else if (0x41 <=? c) && (c <=? 0x46) then Some (c - 0x41 + 10)
  else if (0x61 <=? c) && (c <=? 0x66) then Some (c - 0x61 + 10)
  else None.

Definition hex4 (a b c d : N) : option N :=
  a ← hex_value a; b ← hex_value b; c ← hex_value c; d ← hex_value d;
  Some (((a * 16 + b) * 16 + c) * 16 + d).

(** The character named by a one-letter escape: quote, backslash, slash,
    b, f, n, r, t. *)
Definition simple_escape (c : N) : option N :=
  if c =? 0x22 then Some 0x22
  else if c =? 0x5C then Some 0x5C
  else if c =? 0x2F then Some 0x2F
  else if c =? 0x62 then Some 0x08
  else if c =? 0x66 then Some 0x0C
  else if c =? 0x6E then Some 0x0A
  else if c =? 0x72 then Some 0x0D
  else if c =? 0x74 then Some 0x09
  else None.

(** The characters of a string after its opening quote, up to the closing
    one, and what follows. An escaped surrogate pair is one code point. *)
Fixpoint string_body (s : pystr) : option (pystr * pystr) :=
  match s with
  | [] => None
  | c :: r =>
    if c =? 0x22 then Some ([], r)
    else if c =? 0x5C then
      match r with
      | e :: r1 =>
        if e =? 0x75 then
          match r1 with
          | h1 :: h2 :: h3 :: h4 :: r2 =>
            u ← hex4 h1 h2 h3 h4;
            let single := p ← string_body r2; Some (u :: p.1, p.2) in
            if (0xD800 <=? u) && (u <=? 0xDBFF) then
              match r2 with
              | b :: x :: l1 :: l2 :: l3 :: l4 :: r3 =>
                if (b =? 0x5C) && (x =? 0x75) then
                  match hex4 l1 l2 l3 l4 with
                  | Some u2 =>
                    if (0xDC00 <=? u2) && (u2 <=? 0xDFFF) then
                      p ← string_body r3;
                      Some (0x10000 + (u - 0xD800) * 0x400 + (u2 - 0xDC00)
                            :: p.1, p.2)
                    else single
                  | None => single
                  end
                else single
              | _ => single
              end
            else single
          | _ => None
          end
        else
          c' ← simple_escape e;
          p ← string_body r1; Some (c' :: p.1, p.2)
      | [] => None
      end
    else if c <? 0x20 then None
    else p ← string_body r; Some (c :: p.1, p.2)
  end.

Definition is_digit (c : N) : bool := (0x30 <=? c) && (c <=? 0x39).

Fixpoint digits (s : pystr) (acc : N) : N * pystr :=
  match s with
  | c :: s' => if is_digit c then digits s' (acc * 10 + (c - 0x30)) else (acc, s)
  | [] => (acc, [])
  end.

(** An integer literal: no leading zero, no fraction, no exponent. *)
Definition natural (s : pystr) : option (N * pystr) :=
  match s with
  | c :: s' =>
    if is_digit c then
      let '(n, r) := if c =? 0x30 then (0, s') else digits s 0 in
      match r with
      | d :: _ =>
        if is_digit d || (d =? 0x2E) || (d =? 0x65) || (d =? 0x45) then None
        else Some (n, r)
      | [] => Some (n, r)
      end
    else None
  | [] => None
  end.

(** [s] without the prefix [w], when it starts with it. *)
Fixpoint after (w s : pystr) : option pystr :=
  match w, s with
  | [], _ => Some s
  | a :: w', b :: s' => if a =? b then after w' s' else None
  | _ :: _, [] => None
  end.

Definition scalar (s : pystr) : option (json * pystr) :=
  match after (py "null") s, after (py "true") s, after (py "false") s with
  | Some r, _, _ => Some (JNull, r)
  | _, Some r, _ => Some (JBool true, r)
  | _, _, Some r => Some (JBool false, r)
  | _, _, _ =>
    match after (py "NaN") s, after (py "Infinity") s,
          after (py "-Infinity") s with
    | Some r, _, _ => Some (JFloat S754_nan, r)
    | _, Some r, _ => Some (JFloat (S754_infinity false), r)
    | _, _, Some r => Some (JFloat (S754_infinity true), r)
    | _, _, _ =>
      match s with
      | c :: s' =>
        if c =? 0x2D
        then p ← natural s'; Some (JInt (- Z.of_N p.1), p.2)
        else p ← natural s; Some (JInt (Z.of_N p.1), p.2)
      | [] => None
      end
    end
  end.

Fixpoint value (fuel : nat) (s : pystr) : option (json * pystr) :=
  match fuel with
  | O => None
  | S fuel' =>
    match skip_ws s with
    | c :: r =>
      if c =? 0x7B then
        match skip_ws r with
        | c' :: r' => if c' =? 0x7D then Some (JDict [], r')
                      else members fuel' r []
        | [] => None
        end
      else if c =? 0x5B then
        match skip_ws r with
        | c' :: r' => if c' =? 0x5D then Some (JList [], r')
                      else elements fuel' r []
        | [] => None
        end
      else if c =? 0x22 then
        p ← string_body r; Some (JStr p.1, p.2)
      else scalar (c :: r)
    | [] => None
    end
  end
with members (fuel : nat) (s : pystr) (acc : list (pystr * json))
  : option (json * pystr) :=
  match fuel with
  | O => None
  | S fuel' =>
    match skip_ws s with
    | q :: r =>
      if q =? 0x22 then
        k ← string_body r;
        match skip_ws k.2 with
        | colon :: r2 =>
          if colon =? 0x3A then
            v ← value fuel' r2;
            let acc' := dict_store acc k.1 v.1 in
            match skip_ws v.2 with
            | sep :: r4 =>
              if sep =? 0x2C then members fuel' r4 acc'
              else if sep =? 0x7D then Some (JDict acc', r4)
              else None
            | [] => None
            end
          else None
        | [] => None
        end
      else None
    | [] => None
    end
  end
with elements (fuel : nat) (s : pystr) (acc : list json)
  : option (json * pystr) :=
  match fuel with
  | O => None
  | S fuel' =>
    v ← value fuel' s;
    match skip_ws v.2 with
    | sep :: r =>
      if sep =? 0x2C then elements fuel' r (acc ++ [v.1])
      else if sep =? 0x5D then Some (JList (acc ++ [v.1]), r)
      else None
    | [] => None
    end
  end.

(** [json.loads(s)]: one value, with nothing but whitespace after it. *)
Definition loads (s : pystr) : Result json :=
  match value (S (length s)) s with
  | Some (v, r) =>
    match skip_ws r with
    | [] => Ok v
    | _ => Raise JSONDecodeError
    end
  | None => Raise JSONDecodeError
  end.

Definition hex_digit (n : N) : N :=
  if n <? 10 then 0x30 + n else 0x61 + (n - 10).

(** The escape of a code unit below 0x10000: backslash, u, four
    hexadecimal digits. *)
Definition u_escape (u : N) : pystr :=
  [0x5C; 0x75; hex_digit (u / 0x1000 mod 16); hex_digit (u / 0x100 mod 16);
   hex_digit (u / 0x10 mod 16); hex_digit (u mod 16)].

(** One character of a string, with [ensure_ascii=True]. *)
Definition escape_char (c : N) : pystr :=
  if c =? 0x22 then [0x5C; 0x22]
  else if c =? 0x5C then [0x5C; 0x5C]
  else if c =? 0x0A then [0x5C; 0x6E]
  else if c =? 0x0D then [0x5C; 0x72]
  else if c =? 0x09 then [0x5C; 0x74]
  else if c =? 0x08 then [0x5C; 0x62]
  else if c =? 0x0C then [0x5C; 0x66]
  else if (0x20 <=? c) && (c <=? 0x7E) then [c]
  else if c <? 0x10000 then u_escape c
  else u_escape (0xD800 + (c - 0x10000) / 0x400)
       ++ u_escape (0xDC00 + (c - 0x10000) mod 0x400).

Definition quote (s : pystr) : pystr :=
  [0x22] ++ concat (List.map escape_char s) ++ [0x22].

Definition decimal (n : N) : pystr :=
  py (DecimalString.NilZero.string_of_uint (N.to_uint n)).

(** The last [k] decimal digits of [n]. *)
Fixpoint fraction (k : nat) (n : N) (acc : pystr) : pystr :=
  match k with
  | O => acc
  | S k' => fraction k' (n / 10) (0x30 + n mod 10 :: acc)
  end.

Definition float_token (f : spec_float) : pystr :=
  match f with
  | S754_zero s => if s then py "-0.0" else py "0.0"
  | S754_infinity s => if s then py "-Infinity" else py "Infinity"
  | S754_nan => py "NaN"
  | S754_finite s m e =>
    (if s then py "-" else []) ++
    match e with
    | Zneg k =>
      let n := N.pos m * 5 ^ N.pos k in
      decimal (n / 10 ^ N.pos k) ++ py "."
      ++ fraction (Pos.to_nat k) (n mod 10 ^ N.pos k) []
    | _ => decimal (N.pos m * 2 ^ Z.to_N e) ++ py ".0"
    end
  end.

Fixpoint join (sep : pystr) (l : list pystr) : pystr :=
  match l with
  | [] => []
  | [x] => x
  | x :: l' => x ++ sep ++ join sep l'
  end.

(** [json.dumps(v)] with its default arguments: items separated by a
    comma and a space, key and value by a colon and a space. *)
Fixpoint dumps (v : json) : pystr :=
  match v with
  | JNull => py "null"
  | JBool b => if b then py "true" else py "false"
  | JInt z =>
    (if (z <? 0)%Z then py "-" else []) ++ decimal (Z.abs_N z)
  | JFloat f => float_token f
  | JStr s => quote s
  | JList l => py "[" ++ join (py ", ") (List.map dumps l) ++ py "]"
  | JDict d =>
    py "{"
    ++ join (py ", ")
         (List.map (fun kv : pystr * json =>
                      quote kv.1 ++ py ": " ++ dumps kv.2) d)
    ++ py "}"
  end.

End RefJson.

(** ** Concrete environment and backend answers, for the examples *)
Module Example.

Definition environ : gmap pystr pystr :=
  {[ py "MA_LOCATION" := py "us-central1";
     py "MA_PROMPT_TEMPLATE" := py "projects/p/locations/us-central1/templates/prompt";
     py "MA_RESPONSE_TEMPLATE" := py "projects/p/locations/us-central1/templates/response" ]}.

Definition findings (m : FilterMatchState) (fr : gmap pystr FilterResult)
  : SanitizationResult :=
  {| filter_match_state := m; filter_results := fr |}.

(** A backend that gives the same findings to every call. *)
Definition answers (r : SanitizationResult) : Call -> Result SanitizeResponse :=
  fun _ => Ok {| sanitization_result := r |}.

Definition sdp (m : FilterMatchState) (t : pystr) : FilterResult :=
  sdp_filter_result_of
    (sdp_deidentify_result {| match_state := m; data := {| text := t |} |}).

(** No filter matched. *)
Definition clean : SanitizationResult :=
  findings NO_MATCH_FOUND
    {[ py "sdp" := sdp NO_MATCH_FOUND [];
       py "rai" := rai_filter_result NO_MATCH_FOUND ]}.

(** The SDP filter matched and gives a text. *)
Definition redacted : SanitizationResult :=
  findings MATCH_FOUND
    {[ py "sdp" := sdp MATCH_FOUND (py "my SSN is [REDACTED]");
       py "rai" := rai_filter_result NO_MATCH_FOUND ]}.

(** Another filter matched, the SDP filter did not. *)
Definition unsafe : SanitizationResult :=
  findings MATCH_FOUND
    {[ py "sdp" := sdp NO_MATCH_FOUND [];
       py "rai" := rai_filter_result MATCH_FOUND ]}.

(** Another filter matched and the findings have no [sdp] entry. *)
Definition unsafe_without_sdp : SanitizationResult :=
  findings MATCH_FOUND {[ py "rai" := rai_filter_result MATCH_FOUND ]}.

End Example.

(** * Properties *)

(** ** Running the screening functions and the handlers *)

Section Running.

Variable environ : gmap pystr pystr.
Variable backend : Call -> Result SanitizeResponse.
Variable json_loads : pystr -> Result json.
Variable json_dumps : json -> pystr.

(** [screen_prompt] makes one call, the one of lines 51-59, and reads
    the findings of the answer. *)
Lemma run_screen_prompt (prompt : pystr) :
  run (screen_prompt environ backend prompt) =
  ([user_prompt_call environ prompt],
   r ← backend (user_prompt_call environ prompt);
   interpret_prompt (sanitization_result r) prompt).
Proof.
  unfold run, screen_prompt, invoke, lift, mbind, Callout_bind, Result_bind.
  simpl. destruct (backend _); reflexivity.
Qed.

Lemma run_screen_model_response (model_response : pystr) :
  run (screen_model_response environ backend model_response) =
  ([model_response_call environ model_response],
   r ← backend (model_response_call environ model_response);
   interpret_model_response (sanitization_result r) model_response).
Proof.
  unfold run, screen_model_response, invoke, lift, mbind, Callout_bind,
    Result_bind.
  simpl. destruct (backend _); reflexivity.
Qed.

(** A handler that finds no text replies at once. *)
Lemma run_handler_absent (d : Direction) (body : pybytes) :
  extract json_loads d body = Ok Absent ->
  run (handler environ backend json_loads json_dumps d body)
  = ([], Ok PassThrough).
Proof.
  intros H. destruct d; simpl in H |- *;
    unfold run, on_request_body, on_response_body, lift, mbind,
      Callout_bind; rewrite H; reflexivity.
Qed.

(** A handler that finds a text screens it with [screen_prompt], then
    rejects the message or stores the returned text in the document. *)
Lemma run_handler_present (d : Direction) (body : pybytes)
    (doc : json) (p : pystr) :
  extract json_loads d body = Ok (Present doc (JStr p)) ->
  run (handler environ backend json_loads json_dumps d body) =
  match run (screen_prompt environ backend p) with
  | (log, Ok (true, _)) => (log, Ok (rejection d))
  | (log, Ok (false, valid)) =>
    (log, doc' ← store d doc valid; Ok (MutateBody (json_dumps doc')))
  | (log, Raise e) => (log, Raise e)
  end.
Proof.
  intros H. destruct d; simpl in H |- *;
    unfold run, on_request_body, on_response_body, lift, mbind at 1 2 3,
      Callout_bind; rewrite H; simpl;
    fold (run (screen_prompt environ backend p));
    destruct (run (screen_prompt environ backend p)) as [log [[[|] valid]|e]];
    try reflexivity.
  - unfold mbind, Callout_bind, Result_bind, mret, Callout_ret.
    destruct (store_prompt doc valid); reflexivity.
  - unfold mbind, Callout_bind, Result_bind, mret, Callout_ret.
    destruct (store_model_response doc valid); reflexivity.
Qed.

End Running.

(** ** Strings and documents *)

Lemma lstrip_spaces (s : pystr) :
  forallb is_space s = true -> lstrip s = [].
Proof.
  induction s as [|c s IH]; simpl; [reflexivity|].
  intros H. apply andb_prop in H as [Hc Hs]. rewrite Hc. auto.
Qed.

(** A string of whitespace only is stripped to the empty string. *)
Lemma strip_spaces (s : pystr) :
  forallb is_space s = true -> strip s = [].
Proof.
  intros H. unfold strip, rstrip. rewrite (lstrip_spaces s H). reflexivity.
Qed.

Lemma dict_lookup_store (d : list (pystr * json)) (k : pystr) (v : json) :
  dict_lookup (dict_store d k v) k = Some v.
Proof.
  induction d as [|[k' v'] d IH]; simpl.
  - rewrite bool_decide_eq_true_2; reflexivity.
  - destruct (bool_decide (k' = k)) eqn:E; simpl; rewrite E; auto.
Qed.

Lemma dict_lookup_store_ne (d : list (pystr * json)) (k k0 : pystr) (v : json) :
  k ≠ k0 -> dict_lookup (dict_store d k v) k0 = dict_lookup d k0.
Proof.
  intros Hne. induction d as [|[k' v'] d IH]; simpl.
  - rewrite bool_decide_eq_false_2; [reflexivity|assumption].
  - destruct (bool_decide (k' = k)) eqn:E; simpl.
    + apply bool_decide_eq_true_1 in E. subst k'.
      rewrite bool_decide_eq_false_2; [reflexivity|assumption].
    + rewrite IH. reflexivity.
Qed.

(** Reading back what was stored, in either direction. *)
Lemma getitem_setitem_key (o o' : json) (k : pystr) (v : json) :
  setitem_key o k v = Ok o' -> getitem_key o' k = Ok v.
Proof.
  destruct o; simpl; intros H; try discriminate.
  injection H as <-. simpl. rewrite dict_lookup_store. reflexivity.
Qed.

Lemma get_setitem_key (o o' : json) (k : pystr) (v dflt : json) :
  setitem_key o k v = Ok o' -> py_get o' k dflt = Ok v.
Proof.
  destruct o; simpl; intros H; try discriminate.
  injection H as <-. simpl. rewrite dict_lookup_store. reflexivity.
Qed.

Lemma getitem_setitem_index (o o' : json) (i : nat) (v : json) :
  setitem_index o i v = Ok o' -> getitem_index o' i = Ok v.
Proof.
  destruct o; simpl; intros H; try discriminate.
  destruct (decide (i < length l)%nat) as [Hi|]; [|discriminate].
  injection H as <-. simpl.
  rewrite list_lookup_insert_eq; [reflexivity|assumption].
Qed.


Ltac unfold_result :=
  unfold mbind, Result_bind, mret, Result_ret in *.

(** What a successful [extract] says about the body. *)
Lemma extract_prompt_inv (json_loads : pystr -> Result json)
    (body : pybytes) (doc content : json) :
  extract_prompt json_loads body = Ok (Present doc content) ->
  exists decoded,
    decode_utf8 body = Ok decoded /\ strip decoded ≠ []
    /\ json_loads (strip decoded) = Ok doc
    /\ py_get doc (py "prompt") (JStr []) = Ok content
    /\ truthy content = true.
Proof.
  unfold extract_prompt. unfold_result. intros H.
  destruct (decode_utf8 body) as [decoded|]; [|discriminate].
  exists decoded.
  destruct (bool_decide (strip decoded = [])) eqn:Eb; [discriminate|].
  apply bool_decide_eq_false_1 in Eb.
  destruct (json_loads (strip decoded)) as [doc0|]; [|discriminate].
  destruct (py_get doc0 (py "prompt") (JStr [])) as [c|] eqn:Eg;
    [|discriminate].
  destruct (truthy c) eqn:Et; simpl in H; [|discriminate].
  injection H as -> ->. repeat split; auto.
Qed.

Lemma extract_model_response_inv (json_loads : pystr -> Result json)
    (body : pybytes) (doc content : json) :
  extract_model_response json_loads body = Ok (Present doc content) ->
  exists decoded choices choice message,
    decode_utf8 body = Ok decoded /\ strip decoded ≠ []
    /\ json_loads (strip decoded) = Ok doc
    /\ getitem_key doc (py "choices") = Ok choices
    /\ getitem_index choices 0 = Ok choice
    /\ getitem_key choice (py "message") = Ok message
    /\ getitem_key message (py "content") = Ok content
    /\ truthy content = true.
Proof.
  unfold extract_model_response. unfold_result. intros H.
  destruct (decode_utf8 body) as [decoded|]; [|discriminate].
  exists decoded.
  destruct (bool_decide (strip decoded = [])) eqn:Eb; [discriminate|].
  apply bool_decide_eq_false_1 in Eb.
  destruct (json_loads (strip decoded)) as [doc0|]; [|discriminate].
  destruct (getitem_key doc0 (py "choices")) as [choices|] eqn:E1;
    [|discriminate].
  destruct (getitem_index choices 0) as [choice|] eqn:E2; [|discriminate].
  destruct (getitem_key choice (py "message")) as [message|] eqn:E3;
    [|discriminate].
  destruct (getitem_key message (py "content")) as [c|] eqn:E4;
    [|discriminate].
  destruct (truthy c) eqn:Et; simpl in H; [|discriminate].
  injection H as <- <-. exists choices, choice, message.
  repeat split; auto.
Qed.

(** The text found in a body is never empty. *)
Lemma extract_present_truthy (json_loads : pystr -> Result json)
    (d : Direction) (body : pybytes) (doc content : json) :
  extract json_loads d body = Ok (Present doc content) ->
  truthy content = true.
Proof.
  destruct d; simpl; intros H.
  - apply extract_prompt_inv in H as (? & _ & _ & _ & _ & Ht). exact Ht.
  - apply extract_model_response_inv in H
      as (? & ? & ? & ? & _ & _ & _ & _ & _ & _ & _ & Ht).
    exact Ht.
Qed.



(** ** Reading the findings *)

(** With a match found and no [sdp] entry in the filter results, the
    reading raises: [filter_results.get("sdp")] is [None]. *)
Lemma interpret_sdp_absent (result : SanitizationResult) (original : pystr) :
  filter_match_state result = MATCH_FOUND ->
  filter_results result !! py "sdp" = None ->
  interpret_prompt result original = Raise AttributeError
  /\ interpret_model_response result original = Raise AttributeError.
Proof.
  intros Hm Hs. unfold interpret_prompt, interpret_model_response.
  rewrite Hs. destruct (decide _) as [_|Hn]; [|contradiction].
  split; reflexivity.
Qed.


(** The text returned by [screen_prompt]'s reading: the given one, or the
    one of the SDP filter if it is not empty. *)
Lemma interpret_prompt_text (result : SanitizationResult) (original : pystr)
    (b : bool) (t : pystr) :
  interpret_prompt result original = Ok (b, t) ->
  t = original \/ (b = false /\ t ≠ [] /\ exists fr,
                 filter_results result !! py "sdp" = Some fr
                 /\ t = text (data (deidentify_result (sdp_filter_result fr)))).
Proof.
  unfold interpret_prompt. unfold_result.
  destruct (decide _); [|intros [= <- <-]; auto].
  destruct (filter_results result !! py "sdp") as [fr|] eqn:Hs; simpl;
    [|discriminate].
  destruct (decide _); intros [= <- <-]; auto.
  destruct (text (data (deidentify_result (sdp_filter_result fr))))
    as [|c s] eqn:Et; simpl; auto.
  right. repeat split; [discriminate|]. exists fr. rewrite Et. auto.
Qed.

Lemma interpret_prompt_invalid (result : SanitizationResult)
    (original t : pystr) :
  interpret_prompt result original = Ok (true, t) -> t = original.
Proof.
  intros H. apply interpret_prompt_text in H as [H|(H & _)];
    [assumption|discriminate].
Qed.

Lemma interpret_model_response_invalid (result : SanitizationResult)
    (original t : pystr) :
  interpret_model_response result original = Ok (true, t) -> t = original.
Proof.
  unfold interpret_model_response. unfold_result.
  destruct (decide _); [|intros [= <-]; auto].
  destruct (filter_results result !! py "sdp") as [fr|]; simpl;
    [|discriminate].
  destruct (decide _); intros [= <-]; auto.
Qed.

(** [screen_prompt] never turns a text that is not empty into an empty
    one. *)
Lemma interpret_prompt_nonempty (result : SanitizationResult)
    (original : pystr) (b : bool) (t : pystr) :
  original ≠ [] -> interpret_prompt result original = Ok (b, t) -> t ≠ [].
Proof.
  intros Hne H. apply interpret_prompt_text in H as [->|(_ & H & _)];
    assumption.
Qed.

(** The path of the model response, read in a document in which
    [store_model_response] has stored a text. *)
Lemma read_stored_model_response (doc doc' : json) (valid : pystr) :
  store_model_response doc valid = Ok doc' ->
  exists choices choice message,
    getitem_key doc' (py "choices") = Ok choices
    /\ getitem_index choices 0 = Ok choice
    /\ getitem_key choice (py "message") = Ok message
    /\ getitem_key message (py "content") = Ok (JStr valid).
Proof.
  unfold store_model_response. unfold_result. intros H.
  destruct (getitem_key doc (py "choices")) as [choices|]; [|discriminate].
  destruct (getitem_index choices 0) as [choice|]; [|discriminate].
  destruct (getitem_key choice (py "message")) as [message|]; [|discriminate].
  destruct (setitem_key message (py "content") (JStr valid))
    as [message'|] eqn:E1; [|discriminate].
  destruct (setitem_key choice (py "message") message')
    as [choice'|] eqn:E2; [|discriminate].
  destruct (setitem_index choices 0 choice') as [choices'|] eqn:E3;
    [|discriminate].
  exists choices', choice', message'.
  repeat split; eauto using getitem_setitem_key, getitem_setitem_index.
Qed.

(** Every call a handler makes is the call of [screen_prompt]. *)
Lemma handler_log (environ : gmap pystr pystr)
    (backend : Call -> Result SanitizeResponse)
    (json_loads : pystr -> Result json) (json_dumps : json -> pystr)
    (d : Direction) (body : pybytes) (doc : json) (p : pystr) :
  extract json_loads d body = Ok (Present doc (JStr p)) ->
  (run (handler environ backend json_loads json_dumps d body)).1
  = [user_prompt_call environ p].
Proof.
  intros H. rewrite (run_handler_present _ _ _ _ _ _ _ _ H).
  rewrite run_screen_prompt.
  destruct (_ ≫= _) as [[[|] ?]|]; reflexivity.
Qed.

(** A body that parses to an object without the key [prompt] has no
    text for [on_request_body]: the [get] of line 163 gives the empty
    string. *)
Lemma extract_prompt_unresolved (json_loads : pystr -> Result json)
    (body : pybytes) (decoded : pystr) (d : list (pystr * json)) :
  decode_utf8 body = Ok decoded ->
  strip decoded ≠ [] ->
  json_loads (strip decoded) = Ok (JDict d) ->
  dict_lookup d (py "prompt") = None ->
  extract_prompt json_loads body = Ok Absent.
Proof.
  intros Hd Hs Hl Hk. unfold extract_prompt. rewrite Hd. unfold_result.
  rewrite bool_decide_eq_false_2 by exact Hs. rewrite Hl. simpl.
  rewrite Hk. reflexivity.
Qed.

(** A body that parses to an object without the key [choices] makes the
    subscript of line 200 raise. *)
Lemma extract_model_response_unresolved (json_loads : pystr -> Result json)
    (body : pybytes) (decoded : pystr) (d : list (pystr * json)) :
  decode_utf8 body = Ok decoded ->
  strip decoded ≠ [] ->
  json_loads (strip decoded) = Ok (JDict d) ->
  dict_lookup d (py "choices") = None ->
  extract_model_response json_loads body = Raise KeyError.
Proof.
  intros Hd Hs Hl Hk. unfold extract_model_response. rewrite Hd.
  unfold_result. rewrite bool_decide_eq_false_2 by exact Hs. rewrite Hl.
  simpl. rewrite Hk. reflexivity.
Qed.

Lemma run_handler_unresolved (environ : gmap pystr pystr)
    (backend : Call -> Result SanitizeResponse)
    (json_loads : pystr -> Result json) (json_dumps : json -> pystr)
    (body : pybytes) (decoded : pystr) (d : list (pystr * json)) :
  decode_utf8 body = Ok decoded ->
  strip decoded ≠ [] ->
  json_loads (strip decoded) = Ok (JDict d) ->
  dict_lookup d (py "choices") = None ->
  run (on_response_body environ backend json_loads json_dumps body)
  = ([], Raise KeyError).
Proof.
  intros Hd Hs Hl Hk.
  unfold run, on_response_body, lift, mbind, Callout_bind.
  rewrite (extract_model_response_unresolved _ _ _ _ Hd Hs Hl Hk).
  reflexivity.
Qed.

(** ** The claims *)

(** C1. The claim: a model response is screened through the response
    entry point with the response template. In the code, line 205 of
    [on_response_body] calls [screen_prompt]: on the body
    [{"choices":[{"message":{"content":"hi"}}]}] the one backend call is
    [sanitize_user_prompt] with the template of [MA_PROMPT_TEMPLATE], and
    not the call that [screen_model_response] makes. *)
Theorem response_body_screened_as_prompt
    (environ : gmap pystr pystr) (backend : Call -> Result SanitizeResponse)
    (json_dumps : json -> pystr) :
  let log :=
    (run (on_response_body environ backend RefJson.loads json_dumps
            (body_of "{'choices':[{'message':{'content':'hi'}}]}"))).1 in
  log = [{| api_endpoint := endpoint environ;
            method := sanitize_user_prompt;
            name := environ !! py "MA_PROMPT_TEMPLATE";
            user_prompt_data := {| text := py "hi" |} |}]
  /\ log ≠ [model_response_call environ (py "hi")].
Proof.
  intros log.
  assert (Hlog : log = [user_prompt_call environ (py "hi")]).
  { apply (handler_log environ backend RefJson.loads json_dumps Response _
             (JDict [(py "choices",
                JList [JDict [(py "message",
                  JDict [(py "content", JStr (py "hi"))])]])])).
    vm_compute. reflexivity. }
  split; [exact Hlog|]. rewrite Hlog. intros [= H]. 
Qed.

(** C2. The claim: with a match found and the [sdp] filter absent from
    the filter results, the outcome is Block. In the code the reading
    raises [AttributeError] after the backend call, in both screening
    functions; here on findings whose only entry is a matched [rai]
    filter. *)
Theorem screening_without_sdp_entry_raises
    (environ : gmap pystr pystr) (original : pystr) :
  run (screen_prompt environ (Example.answers Example.unsafe_without_sdp)
         original)
  = ([user_prompt_call environ original], Raise AttributeError)
  /\ run (screen_model_response environ
            (Example.answers Example.unsafe_without_sdp) original)
     = ([model_response_call environ original], Raise AttributeError).
Proof.
  rewrite run_screen_prompt, run_screen_model_response.
  unfold Example.answers. unfold_result. simpl.
  destruct (interpret_sdp_absent Example.unsafe_without_sdp original)
    as [-> ->]; [reflexivity|vm_compute; reflexivity|].
  split; reflexivity.
Qed.

(** C3. When the findings say that no filter matched, the reading returns
    the flag clear and the text as it came, whatever the filter results
    are: they do not enter the result. *)
Theorem interpret_unmatched_allows
    (m : FilterMatchState) (fr : gmap pystr FilterResult)
    (original : pystr) :
  m ≠ MATCH_FOUND ->
  interpret_prompt {| filter_match_state := m; filter_results := fr |}
    original = Ok (false, original)
  /\ interpret_model_response
       {| filter_match_state := m; filter_results := fr |} original
     = Ok (false, original)
  /\ forall fr' : gmap pystr FilterResult,
       interpret_prompt {| filter_match_state := m; filter_results := fr' |}
         original
       = interpret_prompt {| filter_match_state := m; filter_results := fr |}
           original
       /\ interpret_model_response
            {| filter_match_state := m; filter_results := fr' |} original
          = interpret_model_response
              {| filter_match_state := m; filter_results := fr |} original.
Proof.
  intros Hm. unfold interpret_prompt, interpret_model_response. simpl.
  destruct (decide (m = MATCH_FOUND)); [contradiction|].
  repeat split; reflexivity.
Qed.

Lemma interpret_unmatched_allows_witness :
  interpret_prompt Example.clean (py "hello") = Ok (false, py "hello").
Proof.
  refine (proj1 (interpret_unmatched_allows NO_MATCH_FOUND
                   (filter_results Example.clean) (py "hello") _)).
  discriminate.
Defined.

(** C4. With a match found and a matched [sdp] filter (the match state of
    its de-identification result, which is what the code tests), the flag
    is clear and the text returned is the one of the filter; in
    [screen_prompt], when the filter gives no text, it is the text as it
    came. *)
Theorem interpret_sdp_matched_rewrites
    (result : SanitizationResult) (fr : FilterResult) (original : pystr) :
  filter_match_state result = MATCH_FOUND ->
  filter_results result !! py "sdp" = Some fr ->
  match_state (deidentify_result (sdp_filter_result fr)) = MATCH_FOUND ->
  let rewritten := text (data (deidentify_result (sdp_filter_result fr))) in
  (rewritten ≠ [] -> interpret_prompt result original = Ok (false, rewritten))
  /\ (rewritten = [] -> interpret_prompt result original = Ok (false, original))
  /\ interpret_model_response result original = Ok (false, rewritten).
Proof.
  intros Hm Hs Hd rewritten.
  unfold interpret_prompt, interpret_model_response.
  rewrite Hs. unfold_result. simpl.
  destruct (decide (filter_match_state result = MATCH_FOUND));
    [|contradiction].
  destruct (decide _); [|contradiction].
  fold rewritten. repeat split.
  - intros Hne. destruct rewritten; [contradiction|reflexivity].
  - intros ->. reflexivity.
Qed.

Lemma interpret_sdp_matched_rewrites_witness :
  interpret_prompt Example.redacted (py "my SSN is 123-45-6789")
  = Ok (false, py "my SSN is [REDACTED]").
Proof.
  refine (proj1 (interpret_sdp_matched_rewrites Example.redacted
                   (Example.sdp MATCH_FOUND (py "my SSN is [REDACTED]"))
                   (py "my SSN is 123-45-6789") _ _ _) _);
    vm_compute; (reflexivity || discriminate).
Defined.

(** C5. When the screening marks the text invalid, the reply depends on
    the direction: for a prompt, an immediate response with status 403 and
    the header [model-armour-message]; for a model response, a denial with
    the fixed message. *)
Theorem invalid_text_rejected_by_direction
    (environ : gmap pystr pystr) (backend : Call -> Result SanitizeResponse)
    (json_loads : pystr -> Result json) (json_dumps : json -> pystr)
    (d : Direction) (body : pybytes) (doc : json) (p : pystr)
    (log : list Call) (t : pystr) :
  extract json_loads d body = Ok (Present doc (JStr p)) ->
  run (screen_prompt environ backend p) = (log, Ok (true, t)) ->
  run (handler environ backend json_loads json_dumps d body) =
  (log,
   Ok match d with
      | Prompt =>
        header_immediate_response 403
          [(py "model-armour-message",
            py "Provided prompt does not comply with Responsible AI filter")]
      | Response =>
        deny_callout
          (py "Model response violates responsible AI filters. Update the prompt or contact application admin if issue persists.")
      end).
Proof.
  intros Hex Hscr.
  rewrite (run_handler_present _ _ _ _ _ _ _ _ Hex), Hscr.
  destruct d; reflexivity.
Qed.

Lemma invalid_text_rejected_by_direction_witness :
  run (handler Example.environ (Example.answers Example.unsafe)
         RefJson.loads RefJson.dumps Response
         (body_of "{'choices':[{'message':{'content':'bad'}}]}"))
  = ([user_prompt_call Example.environ (py "bad")],
     Ok (deny_callout
           (py "Model response violates responsible AI filters. Update the prompt or contact application admin if issue persists."))).
Proof.
  refine (invalid_text_rejected_by_direction Example.environ
            (Example.answers Example.unsafe) RefJson.loads RefJson.dumps
            Response _
            (JDict [(py "choices",
               JList [JDict [(py "message",
                 JDict [(py "content", JStr (py "bad"))])]])])
            (py "bad") _ (py "bad") _ _);
    vm_compute; reflexivity.
Defined.

(** C6. The claim: a parseable body in which the path of the text does
    not resolve is passed through. In the code, the path of a model
    response is read by subscripts: on the body [{}] the handler raises
    [KeyError], before any backend call. *)
Theorem response_body_without_choices_raises
    (environ : gmap pystr pystr) (backend : Call -> Result SanitizeResponse)
    (json_dumps : json -> pystr) :
  extract_model_response RefJson.loads (body_of "{}") = Raise KeyError
  /\ run (on_response_body environ backend RefJson.loads json_dumps
            (body_of "{}"))
     = ([], Raise KeyError).
Proof.
  assert (Hd : decode_utf8 (body_of "{}") = Ok (py "{}")) by reflexivity.
  assert (Hl : RefJson.loads (strip (py "{}")) = Ok (JDict []))
    by reflexivity.
  split.
  - apply (extract_model_response_unresolved RefJson.loads _ _ [] Hd);
      [discriminate|exact Hl|reflexivity].
  - apply (run_handler_unresolved environ backend RefJson.loads json_dumps
             _ _ [] Hd); [discriminate|exact Hl|reflexivity].
Qed.

(** C7. A body that is empty once decoded and stripped has no text, and
    the handler passes it through, whatever [json.loads] would do with
    it. *)
Theorem blank_body_passes_through
    (environ : gmap pystr pystr) (backend : Call -> Result SanitizeResponse)
    (json_loads : pystr -> Result json) (json_dumps : json -> pystr)
    (d : Direction) (body : pybytes) (decoded : pystr) :
  Utf8.decode body = Some decoded ->
  strip decoded = [] ->
  extract json_loads d body = Ok Absent
  /\ run (handler environ backend json_loads json_dumps d body)
     = ([], Ok PassThrough).
Proof.
  intros Hd Hs.
  assert (Hex : extract json_loads d body = Ok Absent).
  { destruct d; simpl;
      unfold extract_prompt, extract_model_response, decode_utf8;
      rewrite Hd; unfold_result; rewrite Hs; reflexivity. }
  split; [exact Hex|]. apply run_handler_absent. exact Hex.
Qed.

Lemma blank_body_passes_through_witness :
  extract (fun _ => Raise JSONDecodeError) Prompt
    [Byte.x20; Byte.x09; Byte.x0a; Byte.xc2; Byte.xa0] = Ok Absent
  /\ run (handler Example.environ (Example.answers Example.unsafe)
            (fun _ => Raise JSONDecodeError) RefJson.dumps Prompt
            [Byte.x20; Byte.x09; Byte.x0a; Byte.xc2; Byte.xa0])
     = ([], Ok PassThrough).
Proof.
  refine (blank_body_passes_through Example.environ
            (Example.answers Example.unsafe) (fun _ => Raise JSONDecodeError)
            RefJson.dumps Prompt
            [Byte.x20; Byte.x09; Byte.x0a; Byte.xc2; Byte.xa0]
            [0x20; 0x09; 0x0A; 0xA0] _ _);
    vm_compute; reflexivity.
Defined.

(** C8. When no text is found in the body, the handler passes the message
    through and makes no backend call. *)
Theorem absent_text_passes_through_unscreened
    (environ : gmap pystr pystr) (backend : Call -> Result SanitizeResponse)
    (json_loads : pystr -> Result json) (json_dumps : json -> pystr)
    (d : Direction) (body : pybytes) :
  extract json_loads d body = Ok Absent ->
  run (handler environ backend json_loads json_dumps d body)
  = ([], Ok PassThrough).
Proof. apply run_handler_absent. Qed.

Lemma absent_text_passes_through_unscreened_witness :
  run (on_request_body Example.environ (Example.answers Example.unsafe)
         RefJson.loads RefJson.dumps (body_of "{'prompt':''}"))
  = ([], Ok PassThrough).
Proof.
  refine (absent_text_passes_through_unscreened Example.environ
            (Example.answers Example.unsafe) RefJson.loads RefJson.dumps
            Prompt (body_of "{'prompt':''}") _).
  vm_compute. reflexivity.
Defined.

(** C9. The text that the screening returns is stored in the document at
    the path it was read from, and the handler replies with the document
    serialized. When the transport carries that reply as its UTF-8 bytes
    and [json.loads] reads the serialized document back, the text found
    in the new body is exactly the stored one. *)
Theorem inject_then_extract
    (environ : gmap pystr pystr) (backend : Call -> Result SanitizeResponse)
    (json_loads : pystr -> Result json) (json_dumps : json -> pystr)
    (d : Direction) (body : pybytes) (doc : json) (p : pystr)
    (log : list Call) (rewritten : pystr) (doc' : json) (body' : pybytes) :
  extract json_loads d body = Ok (Present doc (JStr p)) ->
  run (screen_prompt environ backend p) = (log, Ok (false, rewritten)) ->
  store d doc rewritten = Ok doc' ->
  decode_utf8 body' = Ok (json_dumps doc') ->
  strip (json_dumps doc') ≠ [] ->
  json_loads (strip (json_dumps doc')) = Ok doc' ->
  run (handler environ backend json_loads json_dumps d body)
  = (log, Ok (MutateBody (json_dumps doc')))
  /\ extract json_loads d body' = Ok (Present doc' (JStr rewritten)).
Proof.
  intros Hex Hscr Hst Hdec Hne Hload. split.
  - rewrite (run_handler_present _ _ _ _ _ _ _ _ Hex), Hscr, Hst.
    reflexivity.
  - assert (Ht : truthy (JStr rewritten) = true).
    { apply extract_present_truthy in Hex.
      rewrite run_screen_prompt in Hscr. injection Hscr as _ Hscr.
      destruct (backend _) as [r|]; [|discriminate]. unfold_result.
      assert (rewritten ≠ []) as Hr.
      { eapply interpret_prompt_nonempty; [|exact Hscr].
        destruct p; [discriminate|discriminate]. }
      destruct rewritten; [contradiction|reflexivity]. }
    destruct d; simpl in Hst |- *.
    + unfold extract_prompt. rewrite Hdec. unfold_result.
      rewrite bool_decide_eq_false_2 by exact Hne. rewrite Hload.
      rewrite (get_setitem_key _ _ _ _ (JStr []) Hst), Ht. reflexivity.
    + apply read_stored_model_response in Hst
        as (choices & choice & message & H1 & H2 & H3 & H4).
      unfold extract_model_response. rewrite Hdec. unfold_result.
      rewrite bool_decide_eq_false_2 by exact Hne.
      rewrite Hload, H1, H2, H3, H4, Ht. reflexivity.
Qed.

Lemma inject_then_extract_witness :
  run (handler Example.environ (Example.answers Example.redacted)
         RefJson.loads RefJson.dumps Prompt
         (body_of "{'prompt':'my SSN is 123-45-6789','user':7}"))
  = ([user_prompt_call Example.environ (py "my SSN is 123-45-6789")],
     Ok (MutateBody (RefJson.dumps
           (JDict [(py "prompt", JStr (py "my SSN is [REDACTED]"));
                   (py "user", JInt 7)]))))
  /\ extract RefJson.loads Prompt
       (body_of "{'prompt': 'my SSN is [REDACTED]', 'user': 7}")
     = Ok (Present
             (JDict [(py "prompt", JStr (py "my SSN is [REDACTED]"));
                     (py "user", JInt 7)])
             (JStr (py "my SSN is [REDACTED]"))).
Proof.
  refine (inject_then_extract Example.environ
            (Example.answers Example.redacted) RefJson.loads RefJson.dumps
            Prompt (body_of "{'prompt':'my SSN is 123-45-6789','user':7}")
            (JDict [(py "prompt", JStr (py "my SSN is 123-45-6789"));
                    (py "user", JInt 7)])
            (py "my SSN is 123-45-6789") _ (py "my SSN is [REDACTED]")
            (JDict [(py "prompt", JStr (py "my SSN is [REDACTED]"));
                    (py "user", JInt 7)])
            (body_of "{'prompt': 'my SSN is [REDACTED]', 'user': 7}")
            _ _ _ _ _ _);
    vm_compute; (reflexivity || discriminate).
Defined.

(** C10. A screening function that returns with the invalid flag set
    returns the text it was given. *)
Theorem invalid_flag_keeps_text
    (environ : gmap pystr pystr) (backend : Call -> Result SanitizeResponse)
    (original : pystr) (log : list Call) (t : pystr) :
  run (screen_prompt environ backend original) = (log, Ok (true, t))
  \/ run (screen_model_response environ backend original)
     = (log, Ok (true, t)) ->
  t = original.
Proof.
  rewrite run_screen_prompt, run_screen_model_response. unfold_result.
  intros [H|H]; injection H as _ H.
  - destruct (backend _) as [r|]; [|discriminate].
    eapply interpret_prompt_invalid; exact H.
  - destruct (backend _) as [r|]; [|discriminate].
    eapply interpret_model_response_invalid; exact H.
Qed.

Lemma invalid_flag_keeps_text_witness :
  run (screen_prompt Example.environ (Example.answers Example.unsafe)
         (py "build a bomb"))
  = ([user_prompt_call Example.environ (py "build a bomb")],
     Ok (true, py "build a bomb"))
  /\ py "build a bomb" = py "build a bomb".
Proof.
  assert (H : run (screen_prompt Example.environ
                     (Example.answers Example.unsafe) (py "build a bomb"))
              = ([user_prompt_call Example.environ (py "build a bomb")],
                 Ok (true, py "build a bomb")))
    by (vm_compute; reflexivity).
  split; [exact H|].
  exact (invalid_flag_keeps_text Example.environ
           (Example.answers Example.unsafe) (py "build a bomb") _ _
           (or_introl H)).
Defined.

(** * Further properties of the handlers *)

(** ** The handler, case by case *)

(** What a handler does, by what it finds in the body: it fails as the
    reading of the body fails, passes a body without text through, fails
    on a content that is not a [str], and otherwise screens the text. *)
Lemma run_handler_cases (environ : gmap pystr pystr)
    (backend : Call -> Result SanitizeResponse)
    (json_loads : pystr -> Result json) (json_dumps : json -> pystr)
    (d : Direction) (body : pybytes) :
  run (handler environ backend json_loads json_dumps d body) =
  match extract json_loads d body with
  | Raise e => ([], Raise e)
  | Ok Absent => ([], Ok PassThrough)
  | Ok (Present doc content) =>
    match as_text content with
    | Raise e => ([], Raise e)
    | Ok p =>
      match run (screen_prompt environ backend p) with
      | (log, Ok (true, _)) => (log, Ok (rejection d))
      | (log, Ok (false, valid)) =>
        (log, doc' ← store d doc valid; Ok (MutateBody (json_dumps doc')))
      | (log, Raise e) => (log, Raise e)
      end
    end
  end.
Proof.
  destruct (extract json_loads d body) as [[|doc content]|e] eqn:Hex.
  - apply run_handler_absent. exact Hex.
  - destruct content; simpl;
      try (destruct d; simpl in Hex |- *;
           unfold run, on_request_body, on_response_body, lift,
             mbind at 1 2, Callout_bind;
           rewrite Hex; reflexivity).
    apply run_handler_present. exact Hex.
  - destruct d; simpl in Hex |- *;
      unfold run, on_request_body, on_response_body, lift, mbind,
        Callout_bind; rewrite Hex; reflexivity.
Qed.



Lemma dict_store_keys (d : list (pystr * json)) (k : pystr) (v : json) :
  is_Some (dict_lookup d k) ->
  List.map fst (dict_store d k v) = List.map fst d.
Proof.
  induction d as [|[k' v'] d IH]; simpl; [intros [? [=]]|].
  destruct (bool_decide (k' = k)) eqn:E; simpl; [reflexivity|].
  intros H. rewrite (IH H). reflexivity.
Qed.


(** ** Failures *)



(** X2. A body that is not blank and that [json.loads] rejects makes the
    handler fail with the exception of [json.loads], before any backend
    call: it is not passed through. *)
Theorem malformed_body_raises
    (environ : gmap pystr pystr) (backend : Call -> Result SanitizeResponse)
    (json_loads : pystr -> Result json) (json_dumps : json -> pystr)
    (d : Direction) (body : pybytes) (decoded : pystr) (e : exn) :
  decode_utf8 body = Ok decoded ->
  strip decoded ≠ [] ->
  json_loads (strip decoded) = Raise e ->
  run (handler environ backend json_loads json_dumps d body)
  = ([], Raise e).
Proof.
  intros Hd Hs Hl. rewrite run_handler_cases.
  assert (Hex : extract json_loads d body = Raise e).
  { destruct d; simpl; unfold extract_prompt, extract_model_response;
      rewrite Hd; unfold_result;
      rewrite bool_decide_eq_false_2 by exact Hs; rewrite Hl; reflexivity. }
  rewrite Hex. reflexivity.
Qed.

Lemma malformed_body_raises_witness :
  run (on_request_body Example.environ (Example.answers Example.clean)
         RefJson.loads RefJson.dumps (body_of " {"))
  = ([], Raise JSONDecodeError).
Proof.
  refine (malformed_body_raises Example.environ
            (Example.answers Example.clean) RefJson.loads RefJson.dumps
            Prompt (body_of " {") (py " {") JSONDecodeError _ _ _);
    vm_compute; (reflexivity || discriminate).
Defined.

(** X3. A body that is not valid UTF-8 makes the handler fail with
    [UnicodeDecodeError], before any backend call. *)
Theorem undecodable_body_raises
    (environ : gmap pystr pystr) (backend : Call -> Result SanitizeResponse)
    (json_loads : pystr -> Result json) (json_dumps : json -> pystr)
    (d : Direction) (body : pybytes) :
  Utf8.decode body = None ->
  run (handler environ backend json_loads json_dumps d body)
  = ([], Raise UnicodeDecodeError).
Proof.
  intros Hd. rewrite run_handler_cases.
  assert (Hex : extract json_loads d body = Raise UnicodeDecodeError).
  { destruct d; simpl;
      unfold extract_prompt, extract_model_response, decode_utf8;
      rewrite Hd; reflexivity. }
  rewrite Hex. reflexivity.
Qed.

Lemma undecodable_body_raises_witness :
  run (on_response_body Example.environ (Example.answers Example.clean)
         RefJson.loads RefJson.dumps [Byte.x7b; Byte.xff; Byte.x7d])
  = ([], Raise UnicodeDecodeError).
Proof.
  refine (undecodable_body_raises Example.environ
            (Example.answers Example.clean) RefJson.loads RefJson.dumps
            Response [Byte.x7b; Byte.xff; Byte.x7d] _).
  vm_compute. reflexivity.
Defined.

(** ** Calls and replies *)

(** X4. Whatever the body, the environment and the backend, a handler
    makes at most one backend call, and that call is the one of
    [screen_prompt], in both directions. *)
Theorem handler_calls_at_most_once
    (environ : gmap pystr pystr) (backend : Call -> Result SanitizeResponse)
    (json_loads : pystr -> Result json) (json_dumps : json -> pystr)
    (d : Direction) (body : pybytes) :
  (run (handler environ backend json_loads json_dumps d body)).1 = []
  \/ exists p : pystr,
       (run (handler environ backend json_loads json_dumps d body)).1
       = [user_prompt_call environ p].
Proof.
  rewrite run_handler_cases.
  destruct (extract json_loads d body) as [[|doc content]|e]; auto.
  destruct (as_text content) as [p|]; auto.
  right. exists p. rewrite run_screen_prompt.
  destruct (_ ≫= _) as [[[|] ?]|]; reflexivity.
Qed.

(** X5. A handler that replies either passes the message through without
    any backend call, or has made exactly one call and replies with the
    rejection of its own direction or with a new body, the serialized
    document. *)
Theorem handler_replies
    (environ : gmap pystr pystr) (backend : Call -> Result SanitizeResponse)
    (json_loads : pystr -> Result json) (json_dumps : json -> pystr)
    (d : Direction) (body : pybytes) (log : list Call) (reply : Reply) :
  run (handler environ backend json_loads json_dumps d body)
  = (log, Ok reply) ->
  (log = [] /\ reply = PassThrough)
  \/ exists p : pystr,
       log = [user_prompt_call environ p]
       /\ (reply = rejection d
           \/ exists doc' : json, reply = MutateBody (json_dumps doc')).
Proof.
  rewrite run_handler_cases.
  destruct (extract json_loads d body) as [[|doc content]|e];
    [intros [= <- <-]; auto| |discriminate].
  destruct (as_text content) as [p|]; [|discriminate].
  rewrite run_screen_prompt.
  destruct (_ ≫= _) as [[[|] valid]|]; [| |discriminate].
  - intros [= <- <-]. right. exists p. auto.
  - unfold_result. destruct (store d doc valid) as [doc'|]; [|discriminate].
    intros [= <- <-]. right. exists p. eauto.
Qed.

Lemma handler_replies_witness :
  ([user_prompt_call Example.environ (py "bad")] = []
   /\ rejection Response = PassThrough)
  \/ exists p : pystr,
       [user_prompt_call Example.environ (py "bad")]
       = [user_prompt_call Example.environ p]
       /\ (rejection Response = rejection Response
           \/ exists doc' : json,
                rejection Response = MutateBody (RefJson.dumps doc')).
Proof.
  refine (handler_replies Example.environ (Example.answers Example.unsafe)
            RefJson.loads RefJson.dumps Response
            (body_of "{'choices':[{'message':{'content':'bad'}}]}")
            [user_prompt_call Example.environ (py "bad")]
            (rejection Response) _).
  vm_compute. reflexivity.
Defined.

(** ** From the findings to the reply *)












(** ** What the store changes *)

Lemma setitem_key_inv (o o' : json) (k : pystr) (v : json) :
  setitem_key o k v = Ok o' ->
  exists d, o = JDict d /\ o' = JDict (dict_store d k v).
Proof.
  destruct o; simpl; intros H; try discriminate.
  injection H as <-. eauto.
Qed.

Lemma setitem_index_inv (o o' : json) (i : nat) (v : json) :
  setitem_index o i v = Ok o' ->
  exists l, o = JList l /\ o' = JList (<[i:=v]> l).
Proof.
  destruct o; simpl; intros H; try discriminate.
  destruct (decide _); [|discriminate]. injection H as <-. eauto.
Qed.

Lemma getitem_key_store_ne (d : list (pystr * json)) (k k0 : pystr)
    (v : json) :
  k ≠ k0 ->
  getitem_key (JDict (dict_store d k v)) k0 = getitem_key (JDict d) k0.
Proof.
  intros Hne. simpl. rewrite dict_lookup_store_ne by exact Hne. reflexivity.
Qed.

(** X11. The assignment of line 180 gives the key [prompt] its new value
    and leaves every other key of the document with the value it had; the
    keys stay in their order when [prompt] was among them. *)
Theorem store_prompt_keeps_other_keys
    (doc doc' : json) (valid : pystr) :
  store_prompt doc valid = Ok doc' ->
  getitem_key doc' (py "prompt") = Ok (JStr valid)
  /\ (forall k : pystr,
        k ≠ py "prompt" -> getitem_key doc' k = getitem_key doc k)
  /\ exists d d' : list (pystr * json),
       doc = JDict d /\ doc' = JDict d'
       /\ (is_Some (dict_lookup d (py "prompt")) ->
           List.map fst d' = List.map fst d).
Proof.
  unfold store_prompt. intros H. split.
  - eapply getitem_setitem_key. exact H.
  - apply setitem_key_inv in H as (d & -> & ->). split.
    + intros k Hk. apply getitem_key_store_ne. auto.
    + exists d, (dict_store d (py "prompt") (JStr valid)).
      repeat split. apply dict_store_keys.
Qed.

Lemma store_prompt_keeps_other_keys_witness :
  getitem_key
    (JDict [(py "model", JStr (py "m")); (py "prompt", JStr (py "safe"))])
    (py "model")
  = getitem_key
      (JDict [(py "model", JStr (py "m")); (py "prompt", JStr (py "raw"))])
      (py "model").
Proof.
  refine (proj1 (proj2 (store_prompt_keeps_other_keys
            (JDict [(py "model", JStr (py "m"));
                    (py "prompt", JStr (py "raw"))])
            (JDict [(py "model", JStr (py "m"));
                    (py "prompt", JStr (py "safe"))])
            (py "safe") _)) (py "model") _).
  - vm_compute. reflexivity.
  - vm_compute. discriminate.
Defined.

(** X12. The assignment of line 213 changes the key [content] of the
    message of the first choice and nothing else: the other keys of the
    document, the other choices, the other keys of the first choice and
    the other keys of its message keep their values. *)
Theorem store_model_response_keeps_the_rest
    (doc doc' : json) (valid : pystr) :
  store_model_response doc valid = Ok doc' ->
  exists choices choices' choice choice' message message' : json,
    getitem_key doc (py "choices") = Ok choices
    /\ getitem_index choices 0 = Ok choice
    /\ getitem_key choice (py "message") = Ok message
    /\ getitem_key doc' (py "choices") = Ok choices'
    /\ getitem_index choices' 0 = Ok choice'
    /\ getitem_key choice' (py "message") = Ok message'
    /\ getitem_key message' (py "content") = Ok (JStr valid)
    /\ (forall k : pystr,
          k ≠ py "choices" -> getitem_key doc' k = getitem_key doc k)
    /\ (forall i : nat,
          i ≠ 0%nat -> getitem_index choices' i = getitem_index choices i)
    /\ (forall k : pystr,
          k ≠ py "message" -> getitem_key choice' k = getitem_key choice k)
    /\ (forall k : pystr,
          k ≠ py "content" -> getitem_key message' k = getitem_key message k).
Proof.
  unfold store_model_response. unfold_result. intros H.
  destruct (getitem_key doc (py "choices")) as [choices|] eqn:R1;
    [|discriminate].
  destruct (getitem_index choices 0) as [choice|] eqn:R2; [|discriminate].
  destruct (getitem_key choice (py "message")) as [message|] eqn:R3;
    [|discriminate].
  destruct (setitem_key message (py "content") (JStr valid))
    as [message'|] eqn:E1; [|discriminate].
  destruct (setitem_key choice (py "message") message')
    as [choice'|] eqn:E2; [|discriminate].
  destruct (setitem_index choices 0 choice') as [choices'|] eqn:E3;
    [|discriminate].
  exists choices, choices', choice, choice', message, message'.
  repeat split; eauto using getitem_setitem_key, getitem_setitem_index.
  - apply setitem_key_inv in H as (dd & -> & ->).
    intros k Hk. apply getitem_key_store_ne. auto.
  - apply setitem_index_inv in E3 as (l & -> & ->).
    intros i Hi. simpl. rewrite list_lookup_insert_ne by auto. reflexivity.
  - apply setitem_key_inv in E2 as (dc & -> & ->).
    intros k Hk. apply getitem_key_store_ne. auto.
  - apply setitem_key_inv in E1 as (dm & -> & ->).
    intros k Hk. apply getitem_key_store_ne. auto.
Qed.

Lemma store_model_response_keeps_the_rest_witness :
  exists choices choices' choice choice' message message' : json,
    getitem_key
      (JDict [(py "id", JInt 3);
              (py "choices",
               JList [JDict [(py "message",
                        JDict [(py "role", JStr (py "assistant"));
                               (py "content", JStr (py "raw"))])];
                      JInt 2])])
      (py "choices") = Ok choices
    /\ getitem_index choices 0 = Ok choice
    /\ getitem_key choice (py "message") = Ok message
    /\ getitem_key
         (JDict [(py "id", JInt 3);
                 (py "choices",
                  JList [JDict [(py "message",
                           JDict [(py "role", JStr (py "assistant"));
                                  (py "content", JStr (py "safe"))])];
                         JInt 2])])
         (py "choices") = Ok choices'
    /\ getitem_index choices' 0 = Ok choice'
    /\ getitem_key choice' (py "message") = Ok message'
    /\ getitem_key message' (py "content") = Ok (JStr (py "safe"))
    /\ (forall k : pystr,
          k ≠ py "choices" ->
          getitem_key
            (JDict [(py "id", JInt 3);
                    (py "choices",
                     JList [JDict [(py "message",
                              JDict [(py "role", JStr (py "assistant"));
                                     (py "content", JStr (py "safe"))])];
                            JInt 2])]) k
          = getitem_key
              (JDict [(py "id", JInt 3);
                      (py "choices",
                       JList [JDict [(py "message",
                                JDict [(py "role", JStr (py "assistant"));
                                       (py "content", JStr (py "raw"))])];
                              JInt 2])]) k)
    /\ (forall i : nat,
          i ≠ 0%nat -> getitem_index choices' i = getitem_index choices i)
    /\ (forall k : pystr,
          k ≠ py "message" -> getitem_key choice' k = getitem_key choice k)
    /\ (forall k : pystr,
          k ≠ py "content" -> getitem_key message' k = getitem_key message k).
Proof.
  refine (store_model_response_keeps_the_rest _ _ (py "safe") _).
  vm_compute. reflexivity.
Defined.

(** ** Bodies without a text, and bodies of another shape *)

(** X13. Only the stripped text of the body counts: two bodies that are
    equal once decoded and stripped get the same calls and the same
    result. *)
Theorem surrounding_whitespace_ignored
    (environ : gmap pystr pystr) (backend : Call -> Result SanitizeResponse)
    (json_loads : pystr -> Result json) (json_dumps : json -> pystr)
    (d : Direction) (body1 body2 : pybytes) (decoded1 decoded2 : pystr) :
  decode_utf8 body1 = Ok decoded1 ->
  decode_utf8 body2 = Ok decoded2 ->
  strip decoded1 = strip decoded2 ->
  run (handler environ backend json_loads json_dumps d body1)
  = run (handler environ backend json_loads json_dumps d body2).
Proof.
  intros H1 H2 Hs. rewrite !run_handler_cases.
  assert (Hex : extract json_loads d body1 = extract json_loads d body2).
  { destruct d; simpl; unfold extract_prompt, extract_model_response;
      rewrite H1, H2; unfold_result; rewrite Hs; reflexivity. }
  rewrite Hex. reflexivity.
Qed.

Lemma surrounding_whitespace_ignored_witness :
  run (on_request_body Example.environ (Example.answers Example.unsafe)
         RefJson.loads RefJson.dumps (body_of "  {'prompt':'x'} "))
  = run (on_request_body Example.environ (Example.answers Example.unsafe)
           RefJson.loads RefJson.dumps (body_of "{'prompt':'x'}")).
Proof.
  refine (surrounding_whitespace_ignored Example.environ
            (Example.answers Example.unsafe) RefJson.loads RefJson.dumps
            Prompt (body_of "  {'prompt':'x'} ") (body_of "{'prompt':'x'}")
            (List.map Byte.to_N (body_of "  {'prompt':'x'} "))
            (List.map Byte.to_N (body_of "{'prompt':'x'}")) _ _ _);
    vm_compute; reflexivity.
Defined.

(** X14. A request body that parses to an object in which the key
    [prompt] is missing, or has a value that Python takes for false (the
    empty string, [null], [false], [0], an empty list or object), is
    passed through without any backend call. *)
Theorem falsy_prompt_passes_through
    (environ : gmap pystr pystr) (backend : Call -> Result SanitizeResponse)
    (json_loads : pystr -> Result json) (json_dumps : json -> pystr)
    (body : pybytes) (decoded : pystr) (fields : list (pystr * json)) :
  decode_utf8 body = Ok decoded ->
  strip decoded ≠ [] ->
  json_loads (strip decoded) = Ok (JDict fields) ->
  truthy (default (JStr []) (dict_lookup fields (py "prompt"))) = false ->
  run (on_request_body environ backend json_loads json_dumps body)
  = ([], Ok PassThrough).
Proof.
  intros Hd Hs Hl Ht.
  change (run (handler environ backend json_loads json_dumps Prompt body)
          = ([], Ok PassThrough)).
  rewrite run_handler_cases. simpl. unfold extract_prompt.
  rewrite Hd. unfold_result. rewrite bool_decide_eq_false_2 by exact Hs.
  rewrite Hl. simpl. rewrite Ht. reflexivity.
Qed.

Lemma falsy_prompt_passes_through_witness :
  run (on_request_body Example.environ (Example.answers Example.unsafe)
         RefJson.loads RefJson.dumps (body_of "{'prompt':null,'n':1}"))
  = ([], Ok PassThrough).
Proof.
  refine (falsy_prompt_passes_through Example.environ
            (Example.answers Example.unsafe) RefJson.loads RefJson.dumps
            (body_of "{'prompt':null,'n':1}")
            (List.map Byte.to_N (body_of "{'prompt':null,'n':1}"))
            [(py "prompt", JNull); (py "n", JInt 1)] _ _ _ _);
    vm_compute; (reflexivity || discriminate).
Defined.

(** X15. A response body in which [choices[0].message.content] resolves
    to a value that Python takes for false is passed through without any
    backend call. *)
Theorem falsy_content_passes_through
    (environ : gmap pystr pystr) (backend : Call -> Result SanitizeResponse)
    (json_loads : pystr -> Result json) (json_dumps : json -> pystr)
    (body : pybytes) (decoded : pystr)
    (doc choices choice message content : json) :
  decode_utf8 body = Ok decoded ->
  strip decoded ≠ [] ->
  json_loads (strip decoded) = Ok doc ->
  getitem_key doc (py "choices") = Ok choices ->
  getitem_index choices 0 = Ok choice ->
  getitem_key choice (py "message") = Ok message ->
  getitem_key message (py "content") = Ok content ->
  truthy content = false ->
  run (on_response_body environ backend json_loads json_dumps body)
  = ([], Ok PassThrough).
Proof.
  intros Hd Hs Hl H1 H2 H3 H4 Ht.
  change (run (handler environ backend json_loads json_dumps Response body)
          = ([], Ok PassThrough)).
  rewrite run_handler_cases. simpl. unfold extract_model_response.
  rewrite Hd. unfold_result. rewrite bool_decide_eq_false_2 by exact Hs.
  rewrite Hl, H1, H2, H3, H4, Ht. reflexivity.
Qed.

Lemma falsy_content_passes_through_witness :
  run (on_response_body Example.environ (Example.answers Example.unsafe)
         RefJson.loads RefJson.dumps
         (body_of "{'choices':[{'message':{'content':''}}]}"))
  = ([], Ok PassThrough).
Proof.
  refine (falsy_content_passes_through Example.environ
            (Example.answers Example.unsafe) RefJson.loads RefJson.dumps
            (body_of "{'choices':[{'message':{'content':''}}]}")
            (List.map Byte.to_N
               (body_of "{'choices':[{'message':{'content':''}}]}"))
            (JDict [(py "choices",
               JList [JDict [(py "message",
                        JDict [(py "content", JStr [])])]])])
            (JList [JDict [(py "message", JDict [(py "content", JStr [])])]])
            (JDict [(py "message", JDict [(py "content", JStr [])])])
            (JDict [(py "content", JStr [])])
            (JStr []) _ _ _ _ _ _ _ _);
    vm_compute; (reflexivity || discriminate).
Defined.

(** X16. A request body that parses to something other than an object (a
    list, a string, a number, [true], [null]) makes [on_request_body] fail
    with [AttributeError] at the [get] of line 163, before any backend
    call. *)
Theorem request_body_not_an_object_raises
    (environ : gmap pystr pystr) (backend : Call -> Result SanitizeResponse)
    (json_loads : pystr -> Result json) (json_dumps : json -> pystr)
    (body : pybytes) (decoded : pystr) (doc : json) :
  decode_utf8 body = Ok decoded ->
  strip decoded ≠ [] ->
  json_loads (strip decoded) = Ok doc ->
  (forall fields : list (pystr * json), doc ≠ JDict fields) ->
  run (on_request_body environ backend json_loads json_dumps body)
  = ([], Raise AttributeError).
Proof.
  intros Hd Hs Hl Hn.
  change (run (handler environ backend json_loads json_dumps Prompt body)
          = ([], Raise AttributeError)).
  rewrite run_handler_cases. simpl. unfold extract_prompt.
  rewrite Hd. unfold_result. rewrite bool_decide_eq_false_2 by exact Hs.
  rewrite Hl.
  destruct doc; simpl; try reflexivity. exfalso. eapply Hn. reflexivity.
Qed.

Lemma request_body_not_an_object_raises_witness :
  run (on_request_body Example.environ (Example.answers Example.clean)
         RefJson.loads RefJson.dumps (body_of "['prompt']"))
  = ([], Raise AttributeError).
Proof.
  refine (request_body_not_an_object_raises Example.environ
            (Example.answers Example.clean) RefJson.loads RefJson.dumps
            (body_of "['prompt']")
            (List.map Byte.to_N (body_of "['prompt']"))
            (JList [JStr (py "prompt")]) _ _ _ _);
    vm_compute; (reflexivity || discriminate).
Defined.

(** X17. A response body whose [choices] is an empty list makes
    [on_response_body] fail with [IndexError] at line 200, before any
    backend call. *)
Theorem response_body_without_choice_raises
    (environ : gmap pystr pystr) (backend : Call -> Result SanitizeResponse)
    (json_loads : pystr -> Result json) (json_dumps : json -> pystr)
    (body : pybytes) (decoded : pystr) (doc : json) :
  decode_utf8 body = Ok decoded ->
  strip decoded ≠ [] ->
  json_loads (strip decoded) = Ok doc ->
  getitem_key doc (py "choices") = Ok (JList []) ->
  run (on_response_body environ backend json_loads json_dumps body)
  = ([], Raise IndexError).
Proof.
  intros Hd Hs Hl H1.
  change (run (handler environ backend json_loads json_dumps Response body)
          = ([], Raise IndexError)).
  rewrite run_handler_cases. simpl. unfold extract_model_response.
  rewrite Hd. unfold_result. rewrite bool_decide_eq_false_2 by exact Hs.
  rewrite Hl, H1. reflexivity.
Qed.

Lemma response_body_without_choice_raises_witness :
  run (on_response_body Example.environ (Example.answers Example.clean)
         RefJson.loads RefJson.dumps (body_of "{'choices':[]}"))
  = ([], Raise IndexError).
Proof.
  refine (response_body_without_choice_raises Example.environ
            (Example.answers Example.clean) RefJson.loads RefJson.dumps
            (body_of "{'choices':[]}")
            (List.map Byte.to_N (body_of "{'choices':[]}"))
            (JDict [(py "choices", JList [])]) _ _ _ _);
    vm_compute; (reflexivity || discriminate).
Defined.

(** ** The two screening functions *)

(** X18. [screen_prompt] never returns an empty text for a text that is
    not empty: an empty text of the SDP filter is replaced by the text
    given. *)
Theorem screen_prompt_text_not_empty
    (environ : gmap pystr pystr) (backend : Call -> Result SanitizeResponse)
    (original : pystr) (log : list Call) (is_invalid : bool) (final : pystr) :
  original ≠ [] ->
  run (screen_prompt environ backend original)
  = (log, Ok (is_invalid, final)) ->
  final ≠ [].
Proof.
  intros Hne. rewrite run_screen_prompt. unfold_result.
  intros [= _ H]. destruct (backend _) as [r|]; [|discriminate].
  eapply interpret_prompt_nonempty; eassumption.
Qed.

Lemma screen_prompt_text_not_empty_witness :
  run (screen_prompt Example.environ
         (Example.answers
            (Example.findings MATCH_FOUND
               {[ py "sdp" := Example.sdp MATCH_FOUND [] ]}))
         (py "my SSN"))
  = ([user_prompt_call Example.environ (py "my SSN")],
     Ok (false, py "my SSN"))
  /\ py "my SSN" ≠ [].
Proof.
  assert (H : run (screen_prompt Example.environ
                     (Example.answers
                        (Example.findings MATCH_FOUND
                           {[ py "sdp" := Example.sdp MATCH_FOUND [] ]}))
                     (py "my SSN"))
              = ([user_prompt_call Example.environ (py "my SSN")],
                 Ok (false, py "my SSN")))
    by (vm_compute; reflexivity).
  split; [exact H|].
  refine (screen_prompt_text_not_empty _ _ (py "my SSN") _ _ _ _ H).
  vm_compute. discriminate.
Defined.

(** X19. The two screening functions read the findings alike, up to the
    [or] of line 77: what [screen_prompt] reads is what
    [screen_model_response] reads, with an empty text replaced by the text
    given; they raise on the same findings. *)
Theorem interpret_prompt_is_model_response_with_fallback
    (result : SanitizationResult) (original : pystr) :
  interpret_prompt result original =
  match interpret_model_response result original with
  | Ok (is_invalid, final) => Ok (is_invalid, py_or final original)
  | Raise e => Raise e
  end.
Proof.
  unfold interpret_prompt, interpret_model_response. unfold_result.
  destruct (decide (filter_match_state result = MATCH_FOUND)).
  - destruct (filter_results result !! py "sdp") as [fr|]; simpl;
      [|reflexivity].
    destruct (decide _); [reflexivity|].
    destruct original; reflexivity.
  - destruct original; reflexivity.
Qed.
